(** * wtforms.ext.django.fields: QuerySetSelectField

    A shallow embedding of [src/wtforms/ext/django/fields.py].  The field
    object is a record, its methods are computations in a state-and-exception
    monad over that record, and the Django side (model instances, their
    primary key, attributes, text form and [==]) is an interface given as a
    type class. *)

From stdpp Require Import gmap strings list pretty.
From Stdlib Require Import ZArith Ascii String.

Open Scope Z_scope.
Open Scope string_scope.

(** ** Python values and exceptions *)

(** The values that flow into an option tag: [None], an integer, a text, or a
    model instance. *)
Inductive PyValue (Obj : Type) : Type :=
| VNone
| VInt (z : Z)
| VStr (s : string)
| VObj (o : Obj).

Arguments VNone {Obj}.
Arguments VInt {Obj} z.
Arguments VStr {Obj} s.
Arguments VObj {Obj} o.

(** The exceptions the module can raise or let through. *)
Inductive PyExc : Type :=
| AttributeError
| ValueError
| TypeError
| ValidationError (msg : string).

Inductive Result (A : Type) : Type :=
| Ok (a : A)
| Raise (e : PyExc).

Arguments Ok {A} a.
Arguments Raise {A} e.

(** ** The interface of a model instance

    What the field asks of the objects of a queryset: [obj.pk] (an integer,
    since the submitted token is coerced with [int] before it is compared),
    [getattr(obj, name)] (partial: a missing attribute is an AttributeError),
    [unicode(obj)], and [obj == other] where [other] is an instance or
    [None]. *)
Class ModelObject (Obj : Type) : Type := {
  pk : Obj -> Z;
  py_getattr : Obj -> string -> option (PyValue Obj);
  py_unicode : Obj -> string;
  obj_eq : Obj -> option Obj -> bool
}.

(** ** [int(text)] of Python 2 on a text: optional surrounding whitespace, an
    optional sign, one or more decimal digits. *)

Definition is_space (c : ascii) : bool :=
  let n := Z.of_nat (nat_of_ascii c) in
  ((n =? 32) || ((9 <=? n) && (n <=? 13)))%Z.

Definition digit_value (c : ascii) : option Z :=
  let n := Z.of_nat (nat_of_ascii c) in
  if ((48 <=? n) && (n <=? 57))%Z then Some (n - 48)%Z else None.

Fixpoint lstrip (s : string) : string :=
  match s with
  | String c r => if is_space c then lstrip r else s
  | EmptyString => EmptyString
  end.

Fixpoint all_space (s : string) : bool :=
  match s with
  | String c r => is_space c && all_space r
  | EmptyString => true
  end.

(** Digits read left to right into [acc]; what follows the digits may only be
    whitespace. *)
Fixpoint int_digits (s : string) (acc : Z) : option Z :=
  match s with
  | EmptyString => Some acc
  | String c r =>
      match digit_value c with
      | Some d => int_digits r (10 * acc + d)
      | None => if all_space s then Some acc else None
      end
  end.

Definition int_unsigned (s : string) : option Z :=
  match s with
  | String c _ => if digit_value c is Some _ then int_digits s 0 else None
  | EmptyString => None
  end.

Definition python_int (s : string) : option Z :=
  match lstrip s with
  | String "-" r => Z.opp <$> int_unsigned r
  | String "+" r => int_unsigned r
  | r => int_unsigned r
  end.

(** A text starts with a decimal digit. *)
Definition digit_headed (s : string) : Prop :=
  match s with
  | String c _ => is_Some (digit_value c)
  | EmptyString => False
  end.

(** ** The field *)

Section QuerySetSelectField.
Context {Obj : Type} `{ModelObject Obj}.

(** [wtforms.widgets.html_params] is not part of this module; rendering
    takes it as a parameter. *)
Variable html_params : gmap string (PyValue Obj) -> string.

(** The attributes of a field instance.  [queryset = None] is the attribute
    being unset (a read is an AttributeError); [_data] and [_formdata] hold
    Python's [None] as [None].  [scans] is a ghost counter of the
    [for obj in self.queryset] loops started so far. *)
Record Field : Type := mkField {
  field_name : string;
  field_id : string;
  label_attr : string;
  allow_blank : bool;
  _data : option Obj;
  _formdata : option Z;
  queryset : option (list Obj);
  scans : nat
}.

Definition with_data (d : option Obj) (f : Field) : Field :=
  mkField (field_name f) (field_id f) (label_attr f) (allow_blank f)
          d (_formdata f) (queryset f) (scans f).

Definition with_formdata (t : option Z) (f : Field) : Field :=
  mkField (field_name f) (field_id f) (label_attr f) (allow_blank f)
          (_data f) t (queryset f) (scans f).

Definition with_queryset (q : option (list Obj)) (f : Field) : Field :=
  mkField (field_name f) (field_id f) (label_attr f) (allow_blank f)
          (_data f) (_formdata f) q (scans f).

Definition with_scan (f : Field) : Field :=
  mkField (field_name f) (field_id f) (label_attr f) (allow_blank f)
          (_data f) (_formdata f) (queryset f) (S (scans f)).

(** *** The monad: a method reads and writes [self] and returns or raises;
    the writes made before an exception stay. *)
Definition M (A : Type) : Type := Field -> Result A * Field.

Definition ret {A} (a : A) : M A := fun f => (Ok a, f).

Definition bind {A B} (m : M A) (k : A -> M B) : M B :=
  fun f =>
    match m f with
    | (Ok a, f') => k a f'
    | (Raise e, f') => (Raise e, f')
    end.

Definition raise {A} (e : PyExc) : M A := fun f => (Raise e, f).
Definition lift {A} (r : Result A) : M A := fun f => (r, f).
Definition gets {A} (p : Field -> A) : M A := fun f => (Ok (p f), f).
Definition modify (u : Field -> Field) : M unit := fun f => (Ok tt, u f).

Notation "x <- m ;; k" := (bind m (fun x => k))
  (at level 100, m at next level, right associativity).
Notation "m ;;; k" := (bind m (fun _ => k))
  (at level 100, right associativity).

(** [self.queryset]: AttributeError when the attribute was never set. *)
Definition get_queryset : M (list Obj) :=
  fun f =>
    match queryset f with
    | Some q => (Ok q, f)
    | None => (Raise AttributeError, f)
    end.

(** The head of [for obj in self.queryset:]. *)
Definition iter_queryset : M (list Obj) :=
  q <- get_queryset ;; modify with_scan ;;; ret q.

(** [int(text)] as a computation: ValueError on a text that is no integer. *)
Definition int_ (s : string) : M Z :=
  match python_int s with
  | Some n => ret n
  | None => raise ValueError
  end.

(** *** [_set_data], lines 51-53 *)
Definition _set_data (data : option Obj) : M unit :=
  modify (with_data data) ;;;
  modify (with_formdata None).

(** [obj.pk == self._formdata] *)
Definition pk_matches (obj : Obj) (formdata : option Z) : bool :=
  match formdata with
  | Some n => (pk obj =? n)%Z
  | None => false
  end.

(** *** [_get_data], lines 43-49 *)
Fixpoint _get_data_loop (qs : list Obj) : M unit :=
  match qs with
  | [] => ret tt
  | obj :: rest =>
      formdata <- gets _formdata ;;
      if pk_matches obj formdata
      then _set_data (Some obj)          (* break *)
      else _get_data_loop rest
  end.

Definition _get_data : M (option Obj) :=
  formdata <- gets _formdata ;;
  (match formdata with
   | Some _ => qs <- iter_queryset ;; _get_data_loop qs
   | None => ret tt
   end) ;;;
  gets _data.

(** *** [process_formdata], lines 80-86 *)
Definition process_formdata (valuelist : list string) : M unit :=
  match valuelist with
  | [] => ret tt
  | v0 :: _ =>
      if String.eqb v0 "__None"
      then _set_data None                (* self.data = None *)
      else
        modify (with_data None) ;;;
        n <- int_ v0 ;;
        modify (with_formdata (Some n))
  end.

(** [a == b] where either side may be [None]: the instance's [__eq__]
    decides, also when the instance is on the right of [None]. *)
Definition py_eq (a b : option Obj) : bool :=
  match a, b with
  | Some x, _ => obj_eq x b
  | None, Some y => obj_eq y None
  | None, None => true
  end.

(** *** [pre_validate], lines 88-94; the [form] argument is not used.
    The loop returns whether it was left through [break]. *)
Fixpoint pre_validate_loop (qs : list Obj) : M bool :=
  match qs with
  | [] => ret false
  | obj :: rest =>
      data <- _get_data ;;
      if py_eq data (Some obj)
      then ret true
      else pre_validate_loop rest
  end.

Definition pre_validate : M unit :=
  blank <- gets allow_blank ;;
  enter <- (if negb blank then ret true
            else data <- _get_data ;; ret (bool_decide (is_Some data))) ;;
  if enter : bool then
    qs <- iter_queryset ;;
    broke <- pre_validate_loop qs ;;
    if broke : bool then ret tt
    else raise (ValidationError "Not a valid choice")
  else ret tt.

(** *** Rendering *)

(** Truth value of a Python value; a model instance is true. *)
Definition py_truthy (v : PyValue Obj) : bool :=
  match v with
  | VNone => false
  | VInt z => negb (z =? 0)%Z
  | VStr s => negb (String.eqb s "")
  | VObj _ => true
  end.

(** The text [%s] puts for a value. *)
Definition py_text (v : PyValue Obj) : string :=
  match v with
  | VNone => "None"
  | VInt z => pretty z
  | VStr s => s
  | VObj o => py_unicode o
  end.

(** What [_option] is given and turns into markup: the [options] dict it
    builds for [html_params], and the label. *)
Record OptionTag : Type := mkOptionTag {
  tag_options : gmap string (PyValue Obj);
  tag_label : PyValue Obj
}.

(** *** [_option], lines 74-78.  Lines 75-77 build the dict; the format of
    line 78 is [option_markup]. *)
Definition _option (value label : PyValue Obj) (selected : bool) : OptionTag :=
  let options : gmap string (PyValue Obj) := {[ "value" := value ]} in
  let options :=
    if selected then <[ "selected" := VStr "selected" ]> options else options in
  mkOptionTag options label.

Definition option_markup (t : OptionTag) : string :=
  "<option " +:+ html_params (tag_options t) +:+ ">" +:+ py_text (tag_label t)
  +:+ "</option>".

(** [self.label_attr and getattr(obj, self.label_attr) or obj], line 71,
    for [attr = self.label_attr]. *)
Definition option_label (attr : string) (obj : Obj) : Result (PyValue Obj) :=
  if negb (String.eqb attr "") then
    match py_getattr obj attr with
    | Some v => Ok (if py_truthy v then v else VObj obj)
    | None => Raise AttributeError
    end
  else Ok (VObj obj).

(** *** [__iter__], lines 66-72.  The generator is run to its end; the
    result is the list of what it yields. *)
Fixpoint __iter__loop (qs : list Obj) : M (list OptionTag) :=
  match qs with
  | [] => ret []
  | obj :: rest =>
      attr <- gets label_attr ;;
      label <- lift (option_label attr obj) ;;
      data <- _get_data ;;
      let tag := _option (VInt (pk obj)) label (obj_eq obj data) in
      tags <- __iter__loop rest ;;
      ret (tag :: tags)
  end.

Definition __iter__ : M (list OptionTag) :=
  blank <- gets allow_blank ;;
  first <- (if blank : bool then
              data <- _get_data ;;
              ret [_option (VStr "__None") (VStr "") (bool_decide (data = None))]
            else ret []) ;;
  qs <- iter_queryset ;;
  tags <- __iter__loop qs ;;
  ret (first ++ tags)%list.

(** *** [__call__], lines 57-64.  [primary_key] reads [self.queryset] and is
    not used afterwards; a [name] among the keyword arguments collides with
    the explicit [name=] of line 60. *)
Definition __call__ (kwargs : gmap string (PyValue Obj)) : M string :=
  ident <- gets field_id ;;
  let kwargs :=
    match kwargs !! "id" with
    | Some _ => kwargs
    | None => <[ "id" := VStr ident ]> kwargs
    end in
  _ <- get_queryset ;;
  nm <- gets field_name ;;
  (match kwargs !! "name" with
   | Some _ => raise TypeError
   | None => ret tt
   end) ;;;
  let html := "<select " +:+ html_params (<[ "name" := VStr nm ]> kwargs) +:+ ">" in
  options <- __iter__ ;;
  ret (foldl (fun acc t => acc +:+ option_markup t) html options +:+ "</select>").

(** *** [__init__], lines 35-41.  [nm] and [ident] stand for what the base
    class sets up; [queryset.all()] is a fresh copy of the same rows. *)
Definition all (qs : list Obj) : list Obj := qs.

Definition __init__ (nm ident : string) (qs : option (list Obj))
    (attr : string) (blank : bool) : Field :=
  let self := mkField nm ident attr blank None None None 0 in
  let self := snd (_set_data None self) in
  match qs with
  | Some q => with_queryset (Some (all q)) self
  | None => self
  end.

(** *** What a caller can do with a field, one step at a time. *)
Inductive Op : Type :=
| OpProcess (valuelist : list string)       (* field.process_formdata(valuelist) *)
| OpAssign (data : option Obj)              (* field.data = data *)
| OpRead                                    (* field.data *)
| OpValidate                                (* field.pre_validate(form) *)
| OpIter                                    (* list(field) *)
| OpCall (kwargs : gmap string (PyValue Obj)) (* field(name=value, ...) *)
| OpSetQueryset (qs : list Obj).            (* field.queryset = qs *)

(** The field after an operation, whether it returned or raised. *)
Definition step (f : Field) (op : Op) : Field :=
  match op with
  | OpProcess valuelist => snd (process_formdata valuelist f)
  | OpAssign data => snd (_set_data data f)
  | OpRead => snd (_get_data f)
  | OpValidate => snd (pre_validate f)
  | OpIter => snd (__iter__ f)
  | OpCall kwargs => snd (__call__ kwargs f)
  | OpSetQueryset qs => with_queryset (Some qs) f
  end.

Definition run (f : Field) (ops : list Op) : Field := foldl step f ops.

(** *** Notions the statements below are written with *)

(** No resolved value is stored while a raw token is pending. *)
Definition exclusive (f : Field) : Prop :=
  is_Some (_formdata f) -> _data f = None.

(** The scan of [_get_data] in one piece: the first row whose primary key is
    the pending token. *)
Definition first_with_pk (n : Z) (qs : list Obj) : option Obj :=
  List.find (fun obj => (pk obj =? n)%Z) qs.

(** What a read of [self.data] does, by cases on the state. *)
Definition resolve (f : Field) : Result (option Obj) * Field :=
  match _formdata f with
  | None => (Ok (_data f), f)
  | Some n =>
      match queryset f with
      | None => (Raise AttributeError, f)
      | Some qs =>
          match first_with_pk n qs with
          | Some obj =>
              (Ok (Some obj), with_formdata None (with_data (Some obj) (with_scan f)))
          | None => (Ok (_data f), with_scan f)
          end
      end
  end.

(** The tag [__iter__] yields for [obj] when the field's value is [v]. *)
Definition tag_for (attr : string) (v : option Obj) (obj : Obj) (t : OptionTag) : Prop :=
  exists label,
    option_label attr obj = Ok label /\
    t = _option (VInt (pk obj)) label (obj_eq obj v).

(** Whether an option tag has the [selected] attribute. *)
Definition carries_selected (t : OptionTag) : bool :=
  bool_decide (is_Some (tag_options t !! "selected")).

(** How many rows of [qs] compare equal to the value [v] ([obj == v]). *)
Definition matches (v : option Obj) (qs : list Obj) : nat :=
  List.length (List.filter (fun obj => obj_eq obj v) qs).

(** A read of [self.data] on [f] returns [v], over the rows [qs] and with
    the label attribute [attr]. *)
Definition reads_as (qs : list Obj) (attr : string) (v : option Obj) (f : Field) : Prop :=
  queryset f = Some qs /\ label_attr f = attr /\ fst (_get_data f) = Ok v.

(** A method keeps a property of the field, whether it returns or raises. *)
Definition preserves {A} (P : Field -> Prop) (m : M A) : Prop :=
  forall f, P f -> P (snd (m f)).

(** Input processing followed by validation, as a form runs them. *)
Definition process_then_validate (valuelist : list string) : M unit :=
  process_formdata valuelist ;;; pre_validate.

(** Input processing followed by a read of [self.data]. *)
Definition process_then_read (valuelist : list string) : M (option Obj) :=
  process_formdata valuelist ;;; _get_data.

(** *** [ModelSelectField.__init__], lines 101-102.  A model class is taken
    by the rows its default manager returns; [model = None] is the default
    argument, on which [model._default_manager] is an AttributeError. *)
Record ModelClass : Type := mkModelClass {
  _default_manager : list Obj
}.

Definition ModelSelectField__init__ (nm ident : string)
    (model : option ModelClass) (attr : string) (blank : bool) : Result Field :=
  match model with
  | Some m => Ok (__init__ nm ident (Some (all (_default_manager m))) attr blank)
  | None => Raise AttributeError
  end.

(** *** Further notions for statements *)

(** The configuration of a field: everything but the value, the pending
    token and the scan counter. *)
Definition same_setup (f f' : Field) : Prop :=
  field_name f' = field_name f /\ field_id f' = field_id f /\
  label_attr f' = label_attr f /\ allow_blank f' = allow_blank f /\
  queryset f' = queryset f.

(** The membership test of [pre_validate]: some row with [v == obj]. *)
Definition is_choice (v : option Obj) (qs : list Obj) : bool :=
  existsb (fun obj => py_eq v (Some obj)) qs.

(** The option markups put one after the other. *)
Definition options_markup (tags : list OptionTag) : string :=
  foldr (fun t rest => option_markup t +:+ rest) "" tags.

(** The attribute map [__call__] hands to [html_params]: the keyword
    arguments, [id] defaulting to the field's, and the field's [name]. *)
Definition select_attributes (kwargs : gmap string (PyValue Obj)) (f : Field)
    : gmap string (PyValue Obj) :=
  <[ "name" := VStr (field_name f) ]>
    (match kwargs !! "id" with
     | Some _ => kwargs
     | None => <[ "id" := VStr (field_id f) ]> kwargs
     end).

(** A read on [f'] gives what a read on [f] gives, a value or an exception,
    and [f'] is configured as [f] is. *)
Definition read_kept (f f' : Field) : Prop :=
  fst (_get_data f') = fst (_get_data f) /\ same_setup f f'.

(** The attribute map expected in the option of a row when the field's
    value is [v]: the primary key as [value], and [selected] when the row
    compares equal to [v]. *)
Definition row_attributes (obj : Obj) (v : option Obj) : gmap string (PyValue Obj) :=
  if obj_eq obj v
  then <[ "selected" := VStr "selected" ]> {[ "value" := VInt (pk obj) ]}
  else {[ "value" := VInt (pk obj) ]}.

(** The attribute map expected in the blank option. *)
Definition blank_attributes (v : option Obj) : gmap string (PyValue Obj) :=
  if bool_decide (v = None)
  then <[ "selected" := VStr "selected" ]> {[ "value" := VStr "__None" ]}
  else {[ "value" := VStr "__None" ]}.

(** The text expected for the option of a row: an [option] element with the
    row's attribute map and the text of the row's label. *)
Definition row_markup_for (attr : string) (v : option Obj) (obj : Obj) (text : string) : Prop :=
  exists label,
    option_label attr obj = Ok label /\
    text = "<option " +:+ html_params (row_attributes obj v) +:+ ">"
           +:+ py_text label +:+ "</option>".

(** The label the option of a row has, by cases on the label attribute. *)
Definition label_by_cases (attr : string) (obj : Obj) (label : PyValue Obj) : Prop :=
  (attr = "" -> label = VObj obj) /\
  (forall value, attr <> "" -> py_getattr obj attr = Some value ->
     py_truthy value = true -> label = value) /\
  (forall value, attr <> "" -> py_getattr obj attr = Some value ->
     py_truthy value = false -> label = VObj obj).

(** Texts put one after the other. *)
Definition join_text (texts : list string) : string :=
  foldr String.append "" texts.

(** The blank option that [__iter__] puts first when blank is allowed. *)
Definition blank_option (v : option Obj) : OptionTag :=
  _option (VStr "__None") (VStr "") (bool_decide (v = None)).

End QuerySetSelectField.

Arguments Field Obj : clear implicits.
Arguments M Obj A : clear implicits.
Arguments OptionTag Obj : clear implicits.
Arguments Op Obj : clear implicits.
Arguments ModelClass Obj : clear implicits.

(** ** A sample model for concrete runs

    A row with an integer primary key, a [name] column and a text form.
    Equality is the one of a Django model instance: another instance with the
    same primary key. *)
Record Row : Type := mkRow {
  row_pk : Z;
  row_name : string;
  row_text : string
}.

#[export] Instance Row_ModelObject : ModelObject Row := {|
  pk := row_pk;
  py_getattr r attr :=
    if String.eqb attr "name" then Some (VStr (row_name r))
    else if String.eqb attr "pk" then Some (VInt (row_pk r))
    else None;
  py_unicode := row_text;
  obj_eq r other :=
    match other with
    | Some r' => (row_pk r =? row_pk r')%Z
    | None => false
    end
|}.

(** Modelled from the spec: [html_params] of [wtforms.widgets], which this
    module imports; each entry of the attribute map as [key=] followed by the
    quoted text of its value, separated by blanks. *)
Definition sample_html_params (params : gmap string (PyValue Row)) : string :=
  let quote := String (ascii_of_nat 34) EmptyString in
  let entry (kv : string * PyValue Row) :=
    fst kv +:+ "=" +:+ quote +:+ py_text (snd kv) +:+ quote in
  match entry <$> map_to_list params with
  | [] => ""
  | e :: es => foldl (fun acc x => acc +:+ " " +:+ x) e es
  end.

Definition alice : Row := mkRow 1 "Alice" "Row object (1)".
Definition bob : Row := mkRow 2 "Bob" "Row object (2)".
Definition nameless : Row := mkRow 3 "" "Row object (3)".

Definition people : list Row := [alice; bob; nameless].

(** A freshly constructed field over [people]. *)
Definition people_field (attr : string) (blank : bool) : Field Row :=
  __init__ "person" "person" (Some people) attr blank.

(** A field constructed without a queryset. *)
Definition bare_field (blank : bool) : Field Row :=
  __init__ "person" "person" None "" blank.


(** Rows where two share a primary key. *)
Definition twins : list Row := [alice; mkRow 2 "Bob" "first"; mkRow 2 "Rob" "second"].

(** * Properties *)

(** ** [int] reads back what the decimal text of an integer says *)

Lemma digit_value_pretty_N_char (d : N) :
  (d < 10)%N -> digit_value (pretty_N_char d) = Some (Z.of_N d).
Proof.
  intros Hd.
  assert (d = 0 \/ d = 1 \/ d = 2 \/ d = 3 \/ d = 4 \/ d = 5 \/ d = 6 \/
          d = 7 \/ d = 8 \/ d = 9)%N as Hcases by lia.
  repeat (destruct Hcases as [-> | Hcases]; [reflexivity |]).
  subst d. reflexivity.
Qed.

Lemma int_digits_pretty_N_go (x : N) :
  forall s, int_digits (pretty_N_go x s) 0 = int_digits s (Z.of_N x).
Proof.
  induction (N.lt_wf_0 x) as [x _ IH]. intros s.
  destruct (decide (x = 0%N)) as [-> | Hx].
  - reflexivity.
  - rewrite pretty_N_go_step by lia.
    rewrite IH by (apply N.div_lt; lia).
    cbn [int_digits].
    rewrite digit_value_pretty_N_char by (apply N.mod_lt; lia).
    f_equal.
    rewrite (N.div_mod x 10) at 3 by lia. lia.
Qed.

Lemma pretty_N_go_digit_headed (x : N) :
  forall s, (0 < x)%N \/ digit_headed s -> digit_headed (pretty_N_go x s).
Proof.
  induction (N.lt_wf_0 x) as [x _ IH]. intros s Hs.
  destruct (decide (x = 0%N)) as [-> | Hx].
  - destruct Hs as [Hs | Hs]; [lia | exact Hs].
  - rewrite pretty_N_go_step by lia.
    apply IH; [apply N.div_lt; lia |].
    right. cbn [digit_headed].
    rewrite digit_value_pretty_N_char by (apply N.mod_lt; lia). eauto.
Qed.

Lemma python_int_digit_headed (s : string) :
  digit_headed s -> python_int s = int_digits s 0.
Proof.
  destruct s as [| c r]; [intros [] |].
  cbn [digit_headed]. intros [d Hd].
  destruct c as [[] [] [] [] [] [] [] []];
    first [discriminate Hd | reflexivity].
Qed.

Lemma int_unsigned_digit_headed (s : string) :
  digit_headed s -> int_unsigned s = int_digits s 0.
Proof.
  destruct s as [| c r]; [intros [] |].
  cbn [digit_headed int_unsigned]. intros [d ->]. reflexivity.
Qed.

Lemma pretty_positive_digits (p : positive) :
  digit_headed (pretty p) /\ int_digits (pretty p) 0 = Some (Z.pos p).
Proof.
  unfold pretty, pretty_positive, pretty, pretty_N.
  destruct (decide (N.pos p = 0%N)) as [Hp | _]; [discriminate Hp |].
  split.
  - apply pretty_N_go_digit_headed. left. lia.
  - rewrite int_digits_pretty_N_go. reflexivity.
Qed.

(** [int(unicode(z)) == z] for every integer [z]. *)
Lemma python_int_pretty (z : Z) : python_int (pretty z) = Some z.
Proof.
  destruct z as [| p | p]; [reflexivity | |].
  - destruct (pretty_positive_digits p) as [Hhead Hval].
    change (pretty (Z.pos p)) with (pretty p).
    rewrite python_int_digit_headed by exact Hhead. exact Hval.
  - destruct (pretty_positive_digits p) as [Hhead Hval].
    change (pretty (Z.neg p)) with (String "-" (pretty p)).
    change (python_int (String "-" (pretty p)))
      with (Z.opp <$> int_unsigned (pretty p)).
    rewrite int_unsigned_digit_headed by exact Hhead.
    rewrite Hval. reflexivity.
Qed.

(** The decimal text of an integer is never the reserved blank token. *)
Lemma pretty_not_blank_token (z : Z) : String.eqb (pretty z) "__None" = false.
Proof.
  destruct (String.eqb (pretty z) "__None") eqn:E; [| reflexivity].
  apply String.eqb_eq in E.
  pose proof (python_int_pretty z) as Hz. rewrite E in Hz. discriminate Hz.
Qed.

Section Properties.
Context {Obj : Type} `{ModelObject Obj}.
Variable html_params : gmap string (PyValue Obj) -> string.

Implicit Types (f : Field Obj) (qs : list Obj) (v data : option Obj)
  (oqs : option (list Obj)) (kwargs : gmap string (PyValue Obj)).

(** ** Reads of [self.data] *)

Lemma _get_data_loop_run qs :
  forall f n, _formdata f = Some n ->
    _get_data_loop qs f =
      (Ok tt, match first_with_pk n qs with
              | Some obj => with_formdata None (with_data (Some obj) f)
              | None => f
              end).
Proof.
  induction qs as [| obj rest IH]; intros f n Hn; [reflexivity |].
  cbn [_get_data_loop]. unfold bind at 1, gets at 1. rewrite Hn.
  unfold first_with_pk. cbn [pk_matches List.find].
  destruct (pk obj =? n)%Z; [reflexivity |].
  apply IH. exact Hn.
Qed.

Lemma _get_data_resolve f : _get_data f = resolve f.
Proof.
  unfold _get_data, resolve, bind at 1, gets at 1.
  destruct (_formdata f) as [n |] eqn:Hn; [| reflexivity].
  unfold iter_queryset, get_queryset, bind, modify, ret, gets.
  destruct (queryset f) as [qs |] eqn:Hq; [| reflexivity].
  rewrite (_get_data_loop_run qs (with_scan f) n) by exact Hn.
  destruct (first_with_pk n qs); reflexivity.
Qed.

(** A second read returns what the first one did. *)
Lemma reads_as_get_data qs attr v f :
  reads_as qs attr v f ->
  _get_data f = (Ok v, snd (_get_data f)) /\
  reads_as qs attr v (snd (_get_data f)).
Proof.
  unfold reads_as. intros (Hq & Ha & Hv).
  rewrite _get_data_resolve in Hv |- *. revert Hv. unfold resolve.
  destruct (_formdata f) as [n |] eqn:Hn; rewrite ?Hq.
  - destruct (first_with_pk n qs) as [obj |] eqn:Hfind; cbn [fst snd];
      intros [= <-]; (split; [reflexivity |]); (split; [exact Hq |]);
      (split; [exact Ha |]); rewrite _get_data_resolve; unfold resolve; cbn.
    + reflexivity.
    + rewrite Hn, Hq, Hfind. reflexivity.
  - cbn [fst snd]. intros [= <-]. repeat split; try assumption.
    rewrite _get_data_resolve. unfold resolve. rewrite Hn. reflexivity.
Qed.

Lemma reads_as_with_scan qs attr v f :
  reads_as qs attr v f -> reads_as qs attr v (with_scan f).
Proof.
  unfold reads_as. rewrite !_get_data_resolve. intros (Hq & Ha & Hv).
  repeat split; try assumption. revert Hv. unfold resolve. cbn.
  destruct (_formdata f); [| exact id].
  rewrite Hq. destruct (first_with_pk z qs); exact id.
Qed.

(** With a queryset in place a read always returns. *)
Lemma read_returns qs f :
  queryset f = Some qs -> exists v, reads_as qs (label_attr f) v f.
Proof.
  intros Hq. unfold reads_as. rewrite _get_data_resolve. unfold resolve.
  rewrite Hq. destruct (_formdata f) as [n |]; [| eauto].
  destruct (first_with_pk n qs); eauto.
Qed.

(** ** Properties kept by every method *)

Lemma preserves_ret {A} (P : Field Obj -> Prop) (a : A) : preserves P (ret a).
Proof. intros f Hf. exact Hf. Qed.

Lemma preserves_gets {A} (P : Field Obj -> Prop) (p : Field Obj -> A) :
  preserves P (gets p).
Proof. intros f Hf. exact Hf. Qed.

Lemma preserves_raise {A} (P : Field Obj -> Prop) (e : PyExc) :
  preserves P (raise (A := A) e).
Proof. intros f Hf. exact Hf. Qed.

Lemma preserves_lift {A} (P : Field Obj -> Prop) (r : Result A) :
  preserves P (lift r).
Proof. intros f Hf. exact Hf. Qed.

Lemma preserves_modify (P : Field Obj -> Prop) (u : Field Obj -> Field Obj) :
  (forall f, P f -> P (u f)) -> preserves P (modify u).
Proof. intros Hu f Hf. apply Hu. exact Hf. Qed.

Lemma preserves_bind {A B} (P : Field Obj -> Prop) (m : M Obj A) (k : A -> M Obj B) :
  preserves P m -> (forall a, preserves P (k a)) -> preserves P (bind m k).
Proof.
  intros Hm Hk f Hf. unfold bind. specialize (Hm f Hf).
  destruct (m f) as [[a | e] f']; cbn [snd] in *; [apply Hk |]; exact Hm.
Qed.

Create HintDb keeps.
#[local] Hint Resolve preserves_ret preserves_gets preserves_raise preserves_lift
  preserves_modify preserves_bind : keeps.

(** The methods that only read: they change the field through reads of
    [self.data] and through starting a scan, and through nothing else. *)
Section ReadOnlyMethods.
Variable P : Field Obj -> Prop.
Hypothesis P_read : preserves P _get_data.
Hypothesis P_scan : forall f, P f -> P (with_scan f).

Lemma preserves_iter_queryset : preserves P iter_queryset.
Proof.
  unfold iter_queryset. apply preserves_bind.
  - intros f Hf. unfold get_queryset. destruct (queryset f); exact Hf.
  - intros q. auto with keeps.
Qed.

Lemma preserves_pre_validate_loop qs : preserves P (pre_validate_loop qs).
Proof.
  induction qs as [| obj rest IH]; cbn [pre_validate_loop]; [auto with keeps |].
  apply preserves_bind; [exact P_read |].
  intros data. destruct (py_eq data (Some obj)); auto with keeps.
Qed.

Lemma preserves_pre_validate : preserves P pre_validate.
Proof.
  unfold pre_validate. apply preserves_bind; [auto with keeps |].
  intros blank. apply preserves_bind.
  - destruct blank; cbn [negb]; auto with keeps.
  - intros [|]; [| auto with keeps].
    apply preserves_bind; [exact preserves_iter_queryset |].
    intros qs. apply preserves_bind; [apply preserves_pre_validate_loop |].
    intros [|]; auto with keeps.
Qed.

Lemma preserves_iter_loop qs : preserves P (__iter__loop qs).
Proof.
  induction qs as [| obj rest IH]; cbn [__iter__loop]; [auto with keeps |].
  apply preserves_bind; [auto with keeps |]. intros attr.
  apply preserves_bind; [auto with keeps |]. intros label.
  apply preserves_bind; [exact P_read |]. intros data.
  apply preserves_bind; [exact IH |]. auto with keeps.
Qed.

Lemma preserves_iter : preserves P __iter__.
Proof.
  unfold __iter__. apply preserves_bind; [auto with keeps |]. intros blank.
  apply preserves_bind.
  - destruct blank; auto with keeps.
  - intros first. apply preserves_bind; [exact preserves_iter_queryset |].
    intros qs. apply preserves_bind; [apply preserves_iter_loop |].
    auto with keeps.
Qed.

Lemma preserves_call kwargs : preserves P (__call__ html_params kwargs).
Proof.
  unfold __call__. apply preserves_bind; [auto with keeps |]. intros ident.
  apply preserves_bind.
  { intros f Hf. unfold get_queryset. destruct (queryset f); exact Hf. }
  intros _. apply preserves_bind; [auto with keeps |]. intros nm.
  apply preserves_bind; [destruct (_ !! "name"); auto with keeps |].
  intros _. apply preserves_bind; [exact preserves_iter |]. auto with keeps.
Qed.

End ReadOnlyMethods.

(** ** The pending token and the stored value *)

Lemma exclusive_set_data data : preserves exclusive (_set_data data).
Proof. intros f _ [n Hn]. discriminate Hn. Qed.

Lemma exclusive_get_data : preserves exclusive _get_data.
Proof.
  intros f Hf. rewrite _get_data_resolve. unfold resolve.
  destruct (_formdata f) as [n |] eqn:Hn; [| exact Hf].
  destruct (queryset f) as [qs |]; [| exact Hf].
  destruct (first_with_pk n qs); cbn [snd].
  - intros [m Hm]. discriminate Hm.
  - exact Hf.
Qed.

Lemma exclusive_with_scan f : exclusive f -> exclusive (with_scan f).
Proof. exact id. Qed.

Lemma exclusive_process_formdata valuelist :
  preserves (@exclusive Obj) (process_formdata valuelist).
Proof.
  destruct valuelist as [| v0 rest]; cbn [process_formdata].
  - auto with keeps.
  - destruct (String.eqb v0 "__None"); [apply exclusive_set_data |].
    intros f _. unfold bind, modify, int_.
    destruct (python_int v0); intros _; reflexivity.
Qed.

Lemma exclusive_step f op : exclusive f -> exclusive (step html_params f op).
Proof.
  destruct op; cbn [step].
  - apply exclusive_process_formdata.
  - apply exclusive_set_data.
  - apply exclusive_get_data.
  - apply preserves_pre_validate; auto using exclusive_get_data, exclusive_with_scan.
  - apply preserves_iter; auto using exclusive_get_data, exclusive_with_scan.
  - apply preserves_call; auto using exclusive_get_data, exclusive_with_scan.
  - exact id.
Qed.

Lemma exclusive_run ops : forall f, exclusive f -> exclusive (run html_params f ops).
Proof.
  induction ops as [| op ops IH]; intros f Hf; [exact Hf |].
  apply IH. apply exclusive_step. exact Hf.
Qed.

Lemma exclusive_init nm ident oqs attr blank :
  exclusive (__init__ nm ident oqs attr blank).
Proof. destruct oqs; intros [n Hn]; discriminate Hn. Qed.

(** C3: after construction and after every further operation (input
    processing, direct assignment, a read, validation, rendering, assigning
    the queryset), a pending raw token and a stored value never coexist:
    while the token is pending the stored data is absent.  A direct
    assignment stores the value and clears the token, and a read whose scan
    finds the token's row stores that row and clears the token. *)
Theorem pending_token_excludes_data :
  (forall nm ident oqs attr blank ops,
      exclusive (run html_params (__init__ nm ident oqs attr blank) ops)) /\
  (forall f data,
      exists f', _set_data data f = (Ok tt, f') /\
                 _data f' = data /\ _formdata f' = None) /\
  (forall f n qs obj,
      _formdata f = Some n -> queryset f = Some qs ->
      first_with_pk n qs = Some obj ->
      exists f', _get_data f = (Ok (Some obj), f') /\
                 _data f' = Some obj /\ _formdata f' = None).
Proof.
  split; [| split].
  - intros. apply exclusive_run, exclusive_init.
  - intros f data. eexists. split; [reflexivity |]. split; reflexivity.
  - intros f n qs obj Hn Hq Hfind. rewrite _get_data_resolve. unfold resolve.
    rewrite Hn, Hq, Hfind. eexists. split; [reflexivity |]. split; reflexivity.
Qed.

(** C7: an empty list of submitted tokens leaves the whole field as it was,
    stored data and pending token included. *)
Theorem empty_valuelist_changes_nothing f :
  process_formdata [] f = (Ok tt, f).
Proof. reflexivity. Qed.

(** ** The reserved blank token *)

Lemma process_blank_token rest f :
  process_formdata ("__None" :: rest) f =
    (Ok tt, with_formdata None (with_data None f)).
Proof. reflexivity. Qed.

(** C4: with blank allowed, the reserved token makes the value absent and
    validation then returns without an error; no scan of the queryset is
    started on the way (the scan counter stands still, and the queryset,
    set or not, is never asked for). *)
Theorem blank_token_passes_when_allowed f rest :
  allow_blank f = true ->
  process_formdata ("__None" :: rest) f =
    (Ok tt, with_formdata None (with_data None f)) /\
  _get_data (with_formdata None (with_data None f)) =
    (Ok None, with_formdata None (with_data None f)) /\
  process_then_validate ("__None" :: rest) f =
    (Ok tt, with_formdata None (with_data None f)) /\
  scans (with_formdata None (with_data None f)) = scans f.
Proof.
  intros Hblank. split; [reflexivity |]. split; [reflexivity |].
  split; [| reflexivity].
  unfold process_then_validate, bind. rewrite process_blank_token.
  unfold pre_validate, bind, gets. cbn [allow_blank with_formdata with_data].
  rewrite Hblank. reflexivity.
Qed.

Lemma pre_validate_loop_absent qs :
  forall f, _formdata f = None -> _data f = None ->
    (forall obj, obj ∈ qs -> py_eq None (Some obj) = false) ->
    pre_validate_loop qs f = (Ok false, f).
Proof.
  induction qs as [| obj rest IH]; intros f Hn Hd Hne; [reflexivity |].
  cbn [pre_validate_loop]. unfold bind at 1.
  rewrite _get_data_resolve. unfold resolve. rewrite Hn, Hd.
  rewrite (Hne obj) by constructor.
  apply IH; [assumption .. |].
  intros o Ho. apply Hne. constructor. exact Ho.
Qed.

(** C5: with blank not allowed, the reserved token still makes the value
    absent, and validation then fails with [Not a valid choice], provided no
    row of the queryset compares equal to the absent value. *)
Theorem blank_token_rejected_when_not_allowed f qs rest :
  allow_blank f = false ->
  queryset f = Some qs ->
  (forall obj, obj ∈ qs -> py_eq None (Some obj) = false) ->
  process_formdata ("__None" :: rest) f =
    (Ok tt, with_formdata None (with_data None f)) /\
  fst (_get_data (with_formdata None (with_data None f))) = Ok None /\
  fst (process_then_validate ("__None" :: rest) f) =
    Raise (ValidationError "Not a valid choice").
Proof.
  intros Hblank Hq Hne. split; [reflexivity |]. split; [reflexivity |].
  unfold process_then_validate, bind. rewrite process_blank_token.
  unfold pre_validate, bind, gets. cbn [allow_blank with_formdata with_data].
  rewrite Hblank. cbn [negb ret].
  unfold iter_queryset, bind, get_queryset, modify, ret.
  cbn [queryset with_formdata with_data]. rewrite Hq.
  rewrite pre_validate_loop_absent by (reflexivity || exact Hne).
  reflexivity.
Qed.

(** ** Tokens that are no integers *)

(** C6: when the first submitted token is neither the reserved blank token
    nor the text of an integer, input processing raises the coercion error
    of [int] to its caller (the stored data has been cleared by then), and
    validation run after it is never reached: the sequence ends with the same
    error in the same state. *)
Theorem non_integer_token_raises f t rest :
  t <> "__None" ->
  python_int t = None ->
  process_formdata (t :: rest) f = (Raise ValueError, with_data None f) /\
  process_then_validate (t :: rest) f = (Raise ValueError, with_data None f).
Proof.
  intros Ht Hint.
  assert (process_formdata (t :: rest) f = (Raise ValueError, with_data None f))
    as Hrun.
  { cbn [process_formdata].
    destruct (String.eqb t "__None") eqn:E.
    - apply String.eqb_eq in E. contradiction.
    - unfold bind, modify, int_. rewrite Hint. reflexivity. }
  split; [exact Hrun |].
  unfold process_then_validate, bind. rewrite Hrun. reflexivity.
Qed.

(** ** Primary key to row and back *)

Lemma first_with_pk_unique qs obj :
  NoDup (pk <$> qs) -> obj ∈ qs -> first_with_pk (pk obj) qs = Some obj.
Proof.
  induction qs as [| o rest IH]; intros Hnodup Hin.
  - inversion Hin.
  - rewrite fmap_cons in Hnodup. apply NoDup_cons in Hnodup as [Hfresh Hnodup].
    unfold first_with_pk. cbn [List.find].
    apply elem_of_cons in Hin as [-> | Hin].
    + rewrite Z.eqb_refl. reflexivity.
    + destruct (pk o =? pk obj)%Z eqn:E.
      * apply Z.eqb_eq in E. exfalso. apply Hfresh. rewrite E.
        apply list_elem_of_fmap_2. exact Hin.
      * apply IH; assumption.
Qed.

Lemma process_integer_token n t rest f :
  python_int t = Some n -> String.eqb t "__None" = false ->
  process_formdata (t :: rest) f =
    (Ok tt, with_formdata (Some n) (with_data None f)).
Proof.
  intros Hint Ht. cbn [process_formdata]. rewrite Ht.
  unfold bind, modify, int_. rewrite Hint. reflexivity.
Qed.

(** C2: over rows with pairwise different primary keys, submitting the
    decimal text of a row's primary key and then reading the field's data
    returns that very row (so an object equal to it), stored as the value
    with no token left pending. *)
Theorem primary_key_round_trip f qs obj rest :
  queryset f = Some qs ->
  NoDup (pk <$> qs) ->
  obj ∈ qs ->
  exists f',
    process_then_read (pretty (pk obj) :: rest) f = (Ok (Some obj), f') /\
    _data f' = Some obj /\ _formdata f' = None.
Proof.
  intros Hq Hnodup Hin.
  unfold process_then_read, bind.
  rewrite (process_integer_token (pk obj))
    by (apply python_int_pretty || apply pretty_not_blank_token).
  rewrite _get_data_resolve. unfold resolve.
  cbn [_formdata queryset with_formdata with_data]. rewrite Hq.
  rewrite first_with_pk_unique by assumption.
  eexists. split; [reflexivity |]. split; reflexivity.
Qed.

(** ** Rendering over a queryset *)

Lemma carries_selected_option (value label : PyValue Obj) (selected : bool) :
  carries_selected (_option value label selected) = selected.
Proof.
  unfold carries_selected, _option. cbn [tag_options].
  destruct selected.
  - rewrite lookup_insert_eq. apply bool_decide_eq_true. eauto.
  - rewrite lookup_singleton_ne by discriminate.
    apply bool_decide_eq_false. intros [x Hx]. discriminate Hx.
Qed.

Lemma selected_count attr v qs (tags : list (OptionTag Obj)) :
  Forall2 (tag_for attr v) qs tags ->
  List.length (List.filter carries_selected tags) = matches v qs.
Proof.
  unfold matches. induction 1 as [| obj t rest tags' (label & _ & ->) _ IH];
    [reflexivity |].
  cbn [List.filter]. rewrite carries_selected_option.
  destruct (obj_eq obj v); cbn [List.length]; rewrite IH; reflexivity.
Qed.

Lemma iter_loop_tags attr v all_rows qs :
  forall f,
    reads_as all_rows attr v f ->
    (forall obj, obj ∈ qs -> exists label, option_label attr obj = Ok label) ->
    exists tags f',
      __iter__loop qs f = (Ok tags, f') /\
      Forall2 (tag_for attr v) qs tags.
Proof.
  induction qs as [| obj rest IH]; intros f Hreads Hlabels.
  - exists [], f. split; [reflexivity | constructor].
  - destruct (Hlabels obj) as [label Hlabel]; [constructor |].
    destruct (reads_as_get_data _ _ _ _ Hreads) as [Hread Hnext].
    destruct (IH (snd (_get_data f)) Hnext) as (tags & f' & Hloop & Htags).
    { intros o Ho. apply Hlabels. constructor. exact Ho. }
    exists (_option (VInt (pk obj)) label (obj_eq obj v) :: tags), f'.
    split.
    + cbn [__iter__loop]. unfold bind at 1, gets at 1.
      destruct Hreads as (_ & -> & _).
      unfold bind at 1, lift at 1. rewrite Hlabel.
      unfold bind at 1. rewrite Hread.
      unfold bind at 1. rewrite Hloop. reflexivity.
    + constructor; [| exact Htags]. exists label. split; [exact Hlabel | reflexivity].
Qed.

(** ** A field without a queryset *)

Lemma get_queryset_unset f :
  queryset f = None -> get_queryset f = (Raise AttributeError, f).
Proof. intros Hq. unfold get_queryset. rewrite Hq. reflexivity. Qed.

Lemma iter_queryset_unset f :
  queryset f = None -> iter_queryset f = (Raise AttributeError, f).
Proof.
  intros Hq. unfold iter_queryset, bind. rewrite get_queryset_unset by exact Hq.
  reflexivity.
Qed.

Lemma read_unset f :
  queryset f = None ->
  _get_data f =
    match _formdata f with
    | Some _ => (Raise AttributeError, f)
    | None => (Ok (_data f), f)
    end.
Proof.
  intros Hq. rewrite _get_data_resolve. unfold resolve. rewrite Hq.
  destruct (_formdata f); reflexivity.
Qed.

(** C10: a field constructed without a queryset has no [queryset] attribute
    at all (with one, it has the rows given; a later assignment sets it).
    While the attribute is unset every operation that scans it ends in an
    AttributeError: a read with a token pending; validation when blank is not
    allowed or a value is stored (or a token is pending); iteration over the
    options; and the call that renders the field. *)
Theorem unset_queryset_is_attribute_error :
  (forall nm ident attr blank,
      queryset (__init__ (Obj := Obj) nm ident None attr blank) = None) /\
  (forall nm ident qs attr blank,
      queryset (__init__ nm ident (Some qs) attr blank) = Some qs) /\
  (forall f qs, queryset (step html_params f (OpSetQueryset qs)) = Some qs) /\
  (forall f,
      queryset f = None ->
      (is_Some (_formdata f) -> fst (_get_data f) = Raise AttributeError) /\
      (allow_blank f = false \/ is_Some (_data f) \/ is_Some (_formdata f) ->
       fst (pre_validate f) = Raise AttributeError) /\
      fst (__iter__ f) = Raise AttributeError /\
      (forall kwargs, fst (__call__ html_params kwargs f) = Raise AttributeError)).
Proof.
  split; [reflexivity |]. split; [reflexivity |]. split; [reflexivity |].
  intros f Hq. split; [| split; [| split]].
  - intros [n Hn]. rewrite read_unset, Hn by exact Hq. reflexivity.
  - intros Hcase. unfold pre_validate, bind at 1, gets at 1.
    destruct (allow_blank f) eqn:Hblank; cbn [negb].
    + unfold bind at 1 2. rewrite read_unset by exact Hq.
      destruct (_formdata f) as [n |] eqn:Hn; [reflexivity |].
      destruct (_data f) as [d |] eqn:Hd.
      * unfold ret at 1. rewrite bool_decide_eq_true_2 by eauto.
        unfold bind. rewrite iter_queryset_unset by exact Hq. reflexivity.
      * destruct Hcase as [Hc | [[x Hx] | [x Hx]]]; discriminate.
    + unfold bind at 1, ret at 1.
      unfold bind. rewrite iter_queryset_unset by exact Hq. reflexivity.
  - unfold __iter__, bind at 1, gets at 1.
    destruct (allow_blank f).
    + unfold bind at 1 2. rewrite read_unset by exact Hq.
      destruct (_formdata f); [reflexivity |].
      unfold ret at 1. unfold bind.
      rewrite iter_queryset_unset by exact Hq. reflexivity.
    + unfold bind at 1, ret at 1. unfold bind.
      rewrite iter_queryset_unset by exact Hq. reflexivity.
  - intros kwargs. unfold __call__, bind at 1, gets at 1.
    unfold bind. rewrite get_queryset_unset by exact Hq. reflexivity.
Qed.

(** ** A primary key that no row has *)

Lemma pre_validate_loop_unmatched n all_rows qs :
  forall f,
    _formdata f = Some n -> _data f = None -> queryset f = Some all_rows ->
    first_with_pk n all_rows = None ->
    (forall obj, obj ∈ qs -> py_eq None (Some obj) = false) ->
    fst (pre_validate_loop qs f) = Ok false.
Proof.
  induction qs as [| obj rest IH]; intros f Hn Hd Hq Hfind Hne; [reflexivity |].
  cbn [pre_validate_loop]. unfold bind at 1.
  rewrite _get_data_resolve. unfold resolve. rewrite Hn, Hq, Hfind, Hd.
  rewrite (Hne obj) by constructor.
  apply IH; try assumption.
  intros o Ho. apply Hne. constructor. exact Ho.
Qed.

(** X1: with blank not allowed, an integer token that is no row's primary key
    fails validation with [Not a valid choice], provided no row compares
    equal to the absent value. *)
Lemma unknown_key_rejected_when_blank_not_allowed f qs t n rest :
  allow_blank f = false ->
  queryset f = Some qs ->
  python_int t = Some n ->
  first_with_pk n qs = None ->
  (forall obj, obj ∈ qs -> py_eq None (Some obj) = false) ->
  fst (process_then_validate (t :: rest) f) =
    Raise (ValidationError "Not a valid choice").
Proof.
  intros Hblank Hq Hint Hfind Hne.
  assert (String.eqb t "__None" = false) as Ht.
  { destruct (String.eqb t "__None") eqn:E; [| reflexivity].
    apply String.eqb_eq in E. subst t. discriminate Hint. }
  unfold process_then_validate, bind.
  rewrite (process_integer_token n) by assumption.
  unfold pre_validate, bind at 1, gets at 1.
  cbn [allow_blank with_formdata with_data]. rewrite Hblank. cbn [negb].
  unfold bind at 1, ret at 1.
  unfold bind at 1, iter_queryset, bind at 1, get_queryset.
  cbn [queryset with_formdata with_data]. rewrite Hq.
  unfold bind at 1, modify, ret. unfold bind.
  pose proof (pre_validate_loop_unmatched n qs qs
    (with_scan (with_formdata (Some n) (with_data None f)))
    eq_refl eq_refl Hq Hfind Hne) as Hloop.
  destruct (pre_validate_loop qs _) as [r f'].
  cbn [fst] in Hloop. subst r. reflexivity.
Qed.

(** X2: with blank allowed, the same submission passes validation: the read
    finds no row, the value stays absent, and an absent value is taken for
    the blank choice. *)
Lemma unknown_key_accepted_when_blank_allowed f qs t n rest :
  allow_blank f = true ->
  queryset f = Some qs ->
  python_int t = Some n ->
  first_with_pk n qs = None ->
  fst (process_then_validate (t :: rest) f) = Ok tt.
Proof.
  intros Hblank Hq Hint Hfind.
  assert (String.eqb t "__None" = false) as Ht.
  { destruct (String.eqb t "__None") eqn:E; [| reflexivity].
    apply String.eqb_eq in E. subst t. discriminate Hint. }
  unfold process_then_validate, bind.
  rewrite (process_integer_token n) by assumption.
  unfold pre_validate, bind at 1, gets at 1.
  cbn [allow_blank with_formdata with_data]. rewrite Hblank. cbn [negb].
  unfold bind at 1 2. rewrite _get_data_resolve. unfold resolve.
  cbn [_formdata queryset _data with_formdata with_data].
  rewrite Hq, Hfind. reflexivity.
Qed.

(** ** The label of an option *)

(** Line 71 by cases: the row itself when no label attribute is set, and also
    when the attribute's value is false (an empty text, zero, [None]);
    otherwise the attribute's value; AttributeError on a missing attribute. *)
Lemma option_label_cases attr obj :
  (attr = "" -> option_label attr obj = Ok (VObj obj)) /\
  (forall value, attr <> "" -> py_getattr obj attr = Some value ->
     option_label attr obj = Ok (if py_truthy value then value else VObj obj)) /\
  (attr <> "" -> py_getattr obj attr = None ->
     option_label attr obj = Raise AttributeError).
Proof.
  unfold option_label. split; [intros ->; reflexivity |].
  split; intros; (destruct (String.eqb attr "") eqn:E;
    [apply String.eqb_eq in E; contradiction |]); cbn [negb];
    match goal with Hg : py_getattr _ _ = _ |- _ => rewrite Hg end; reflexivity.
Qed.

(** ** What a read returns *)

(** X4: a read of the field's data fails only in one situation, a token
    pending on a field without a queryset, and then with an AttributeError;
    in every other state it returns. *)
Theorem read_fails_only_without_queryset f :
  (forall e, fst (_get_data f) = Raise e ->
     e = AttributeError /\ queryset f = None /\ is_Some (_formdata f)) /\
  (queryset f = None -> is_Some (_formdata f) ->
     _get_data f = (Raise AttributeError, f)).
Proof.
  rewrite _get_data_resolve. unfold resolve. split.
  - intros e.
    destruct (_formdata f) as [n |]; [| discriminate].
    destruct (queryset f) as [qs |].
    + destruct (first_with_pk n qs); discriminate.
    + intros [= <-]. eauto.
  - intros -> [n ->]. reflexivity.
Qed.

(** X5: a read that returned [v] is followed by reads that return [v] again.
    Once no token is pending (a row was found, or none was submitted) a
    further read changes nothing at all and starts no scan; while a token
    stays pending because no row has it, every read scans the queryset
    again. *)
Theorem read_is_stable f v f1 :
  _get_data f = (Ok v, f1) ->
  fst (_get_data f1) = Ok v /\
  (_formdata f1 = None -> _get_data f1 = (Ok v, f1)) /\
  (is_Some (_formdata f1) -> scans (snd (_get_data f1)) = S (scans f1)).
Proof.
  rewrite !_get_data_resolve. unfold resolve at 1.
  destruct (_formdata f) as [n |] eqn:Hn.
  - destruct (queryset f) as [qs |] eqn:Hq; [| discriminate].
    destruct (first_with_pk n qs) as [obj |] eqn:Hfind; intros [= <- <-].
    + split; [reflexivity |]. split; [reflexivity |].
      intros [m Hm]. discriminate Hm.
    + unfold resolve. cbn [_formdata queryset with_scan _data].
      rewrite Hn, Hq, Hfind. cbn [fst snd scans].
      split; [reflexivity |]. split; [discriminate | reflexivity].
  - intros [= <- <-]. unfold resolve. rewrite Hn.
    split; [reflexivity |]. split; [reflexivity |].
    intros [m Hm]. discriminate Hm.
Qed.

(** X6: a value assigned directly is what the next read returns, whether or
    not it is a row of the queryset and whether or not a queryset is set; no
    scan is started and any pending token is dropped. *)
Theorem assigned_value_is_read_back f data :
  bind (_set_data data) (fun _ => _get_data) f =
    (Ok data, with_formdata None (with_data data f)) /\
  scans (with_formdata None (with_data data f)) = scans f /\
  same_setup f (with_formdata None (with_data data f)).
Proof.
  split; [reflexivity |]. split; [reflexivity |].
  repeat split.
Qed.

(** X7: after an integer token is processed, a read returns the first row,
    in the order of the queryset, whose primary key is the token, and the
    absent value when there is none; whatever was stored before is gone. *)
Theorem read_after_submission_is_first_match f qs t n rest :
  queryset f = Some qs ->
  python_int t = Some n ->
  exists f',
    process_then_read (t :: rest) f = (Ok (first_with_pk n qs), f') /\
    _data f' = first_with_pk n qs /\
    (is_Some (_formdata f') <-> first_with_pk n qs = None).
Proof.
  intros Hq Hint.
  assert (String.eqb t "__None" = false) as Ht.
  { destruct (String.eqb t "__None") eqn:E; [| reflexivity].
    apply String.eqb_eq in E. subst t. discriminate Hint. }
  unfold process_then_read, bind.
  rewrite (process_integer_token n) by assumption.
  rewrite _get_data_resolve. unfold resolve.
  cbn [_formdata queryset _data with_formdata with_data]. rewrite Hq.
  destruct (first_with_pk n qs) as [obj |].
  - eexists. split; [reflexivity |]. split; [reflexivity |].
    cbn. split; [intros [m Hm]; discriminate Hm | discriminate].
  - eexists. split; [reflexivity |]. split; [reflexivity |].
    cbn. split; [reflexivity | eauto].
Qed.

(** ** What validation decides *)

Lemma pre_validate_loop_run all_rows attr v qs :
  forall f,
    reads_as all_rows attr v f ->
    exists f', pre_validate_loop qs f = (Ok (is_choice v qs), f').
Proof.
  induction qs as [| obj rest IH]; intros f Hreads; [eexists; reflexivity |].
  destruct (reads_as_get_data _ _ _ _ Hreads) as [Hread Hnext].
  cbn [pre_validate_loop]. unfold bind at 1. rewrite Hread.
  unfold is_choice. cbn [existsb].
  destruct (py_eq v (Some obj)); [eexists; reflexivity |].
  apply IH. exact Hnext.
Qed.

Lemma pre_validate_run qs v f :
  queryset f = Some qs ->
  fst (_get_data f) = Ok v ->
  fst (pre_validate f) =
    if (allow_blank f && bool_decide (v = None)) || is_choice v qs
    then Ok tt
    else Raise (ValidationError "Not a valid choice").
Proof.
  intros Hq Hv.
  assert (reads_as qs (label_attr f) v f) as Hreads by (split; [| split]; auto).
  assert (forall g, reads_as qs (label_attr f) v g ->
            fst (bind iter_queryset (fun rows =>
                   bind (pre_validate_loop rows) (fun broke : bool =>
                     if broke then ret tt
                     else raise (ValidationError "Not a valid choice"))) g) =
            if is_choice v qs then Ok tt
            else Raise (ValidationError "Not a valid choice")) as Hscan.
  { intros g Hg.
    destruct (pre_validate_loop_run qs (label_attr f) v qs (with_scan g)
                (reads_as_with_scan _ _ _ _ Hg)) as [g' Hloop].
    unfold iter_queryset, bind, get_queryset, modify, ret.
    destruct Hg as (-> & _ & _).
    unfold bind in Hloop. rewrite Hloop.
    destruct (is_choice v qs); reflexivity. }
  unfold pre_validate, bind at 1, gets at 1.
  destruct (allow_blank f) eqn:Hblank; cbn [negb andb orb].
  - destruct (reads_as_get_data _ _ _ _ Hreads) as [Hread Hnext].
    unfold bind at 1 2. rewrite Hread. unfold ret at 1.
    destruct v as [d |].
    + rewrite bool_decide_eq_true_2 by eauto.
      rewrite bool_decide_eq_false_2 by discriminate. cbn [orb].
      apply Hscan. exact Hnext.
    + rewrite bool_decide_eq_false_2 by (intros [x Hx]; discriminate Hx).
      rewrite bool_decide_eq_true_2 by reflexivity. reflexivity.
  - unfold bind at 1, ret at 1. apply Hscan. exact Hreads.
Qed.

(** X8: on a field with a queryset, validation depends on the value [v] a
    read returns and on nothing else: it passes when blank is allowed and
    [v] is absent, or when some row compares equal to [v]; in every other
    case it raises [Not a valid choice], and it raises nothing else. *)
Theorem validation_decides_membership qs v f :
  queryset f = Some qs ->
  fst (_get_data f) = Ok v ->
  fst (pre_validate f) =
    if (allow_blank f && bool_decide (v = None)) || is_choice v qs
    then Ok tt
    else Raise (ValidationError "Not a valid choice").
Proof. exact (pre_validate_run qs v f). Qed.

(** X9: submitting the decimal text of the primary key of a row of the
    queryset passes validation, with blank allowed or not, when primary keys
    are pairwise different and the row compares equal to itself. *)
Theorem valid_submission_passes_validation f qs obj rest :
  queryset f = Some qs ->
  NoDup (pk <$> qs) ->
  obj ∈ qs ->
  obj_eq obj (Some obj) = true ->
  fst (process_then_validate (pretty (pk obj) :: rest) f) = Ok tt.
Proof.
  intros Hq Hnodup Hin Hrefl.
  unfold process_then_validate, bind.
  rewrite (process_integer_token (pk obj))
    by (apply python_int_pretty || apply pretty_not_blank_token).
  cbv beta iota.
  rewrite (pre_validate_run qs (Some obj)).
  - assert (is_choice (Some obj) qs = true) as ->.
    { apply existsb_exists. exists obj.
      split; [apply list_elem_of_In; exact Hin | exact Hrefl]. }
    rewrite orb_true_r. reflexivity.
  - exact Hq.
  - rewrite _get_data_resolve. unfold resolve.
    cbn [_formdata queryset with_formdata with_data]. rewrite Hq.
    rewrite first_with_pk_unique by assumption. reflexivity.
Qed.


(** ** What validation and rendering leave alone *)

(** ** What input processing leaves alone *)

(** X12: input processing is lazy and local: whatever the submitted tokens,
    it starts no scan of the queryset, leaves the configuration as it was,
    and either returns or raises the ValueError of [int]; it returns exactly
    when there is no first token, or the first token is the reserved blank
    token or the text of an integer. *)
Theorem input_processing_is_lazy f valuelist :
  scans (snd (process_formdata valuelist f)) = scans f /\
  same_setup f (snd (process_formdata valuelist f)) /\
  fst (process_formdata valuelist f) =
    match valuelist with
    | [] => Ok tt
    | t :: _ =>
        if String.eqb t "__None" then Ok tt
        else if python_int t is Some _ then Ok tt else Raise ValueError
    end.
Proof.
  destruct valuelist as [| t rest]; [repeat split |].
  cbn [process_formdata].
  destruct (String.eqb t "__None"); [repeat split |].
  unfold bind, modify, int_.
  destruct (python_int t); repeat split.
Qed.

(** ** More on rendering *)

Lemma option_label_raises attr obj e :
  option_label attr obj = Raise e -> e = AttributeError.
Proof.
  unfold option_label. destruct (negb (String.eqb attr "")); [| discriminate].
  destruct (py_getattr obj attr); [discriminate |]. intros [= <-]. reflexivity.
Qed.

Lemma iter_loop_missing_label all_rows attr v qs :
  forall f,
    reads_as all_rows attr v f ->
    (exists obj, obj ∈ qs /\ option_label attr obj = Raise AttributeError) ->
    fst (__iter__loop qs f) = Raise AttributeError.
Proof.
  induction qs as [| row rest IH]; intros f Hreads (obj & Hin & Hobj).
  - inversion Hin.
  - cbn [__iter__loop]. unfold bind at 1, gets at 1.
    pose proof Hreads as (_ & Hattr & _). rewrite Hattr.
    unfold bind at 1, lift at 1.
    destruct (option_label attr row) as [label | e] eqn:Hrow.
    + destruct (reads_as_get_data _ _ _ _ Hreads) as [Hread Hnext].
      unfold bind at 1. rewrite Hread.
      assert (fst (__iter__loop rest (snd (_get_data f))) = Raise AttributeError)
        as Hrest.
      { apply IH; [exact Hnext |]. exists obj. split; [| exact Hobj].
        apply elem_of_cons in Hin as [-> | Hin]; [congruence | exact Hin]. }
      unfold bind. destruct (__iter__loop rest _) as [[tags | e] f'];
        cbn [fst] in Hrest; [discriminate Hrest | exact Hrest].
    + apply option_label_raises in Hrow as ->. reflexivity.
Qed.

(** X14: when a label attribute is set and some row of the queryset does not
    have it, iteration over the options ends in an AttributeError, with
    blank allowed or not, and so does the rendering call. *)
Theorem missing_label_attribute_fails_rendering f qs obj kwargs :
  queryset f = Some qs ->
  obj ∈ qs ->
  label_attr f <> "" ->
  py_getattr obj (label_attr f) = None ->
  fst (__iter__ f) = Raise AttributeError /\
  (kwargs !! "name" = None ->
   fst (__call__ html_params kwargs f) = Raise AttributeError).
Proof.
  intros Hq Hin Hattr Hmissing.
  assert (option_label (label_attr f) obj = Raise AttributeError) as Hobj.
  { unfold option_label. rewrite Hmissing.
    destruct (String.eqb (label_attr f) "") eqn:E; [| reflexivity].
    apply String.eqb_eq in E. contradiction. }
  destruct (read_returns qs f Hq) as [v Hreads].
  assert (fst (__iter__ f) = Raise AttributeError) as Hiter.
  { unfold __iter__, bind at 1, gets at 1.
    assert (forall g, reads_as qs (label_attr f) v g ->
              fst (bind iter_queryset (fun rows => __iter__loop rows) g) =
                Raise AttributeError) as Hscan.
    { intros g Hg. unfold iter_queryset, bind, get_queryset, modify, ret.
      pose proof Hg as (-> & _ & _).
      exact (iter_loop_missing_label qs _ v qs (with_scan g)
               (reads_as_with_scan _ _ _ _ Hg) (ex_intro _ obj (conj Hin Hobj))). }
    destruct (allow_blank f).
    - destruct (reads_as_get_data _ _ _ _ Hreads) as [Hread Hnext].
      unfold bind at 1 2. rewrite Hread. unfold ret at 1.
      specialize (Hscan _ Hnext). unfold bind at 1.
      unfold bind in Hscan at 1.
      destruct (iter_queryset (snd (_get_data f))) as [[rows | e] g];
        [| exact Hscan].
      unfold bind. destruct (__iter__loop rows g) as [[tags | e] g'];
        cbn [fst] in Hscan; [discriminate Hscan | exact Hscan].
    - unfold bind at 1, ret at 1.
      specialize (Hscan _ Hreads). unfold bind at 1.
      unfold bind in Hscan at 1.
      destruct (iter_queryset f) as [[rows | e] g]; [| exact Hscan].
      unfold bind. destruct (__iter__loop rows g) as [[tags | e] g'];
        cbn [fst] in Hscan; [discriminate Hscan | exact Hscan]. }
  split; [exact Hiter |].
  intros Hname. unfold __call__, bind at 1, gets at 1.
  unfold bind at 1, get_queryset. rewrite Hq.
  unfold bind at 1, gets at 1.
  assert ((match kwargs !! "id" with
           | Some _ => kwargs
           | None => <[ "id" := VStr (field_id f) ]> kwargs
           end) !! "name" = None) as ->.
  { destruct (kwargs !! "id"); [exact Hname |].
    rewrite lookup_insert_ne by discriminate. exact Hname. }
  unfold bind at 1, ret at 1. unfold bind.
  destruct (__iter__ f) as [[tags | e] g]; cbn [fst] in Hiter |- *;
    [discriminate Hiter | injection Hiter as ->; reflexivity].
Qed.

(** ** The rendering call *)

Lemma append_assoc (a b c : string) : (a +:+ b) +:+ c = a +:+ (b +:+ c).
Proof.
  induction a as [| ch a IH]; [reflexivity |].
  exact (f_equal (String ch) IH).
Qed.

Lemma append_empty (a : string) : a +:+ "" = a.
Proof.
  induction a as [| ch a IH]; [reflexivity |].
  exact (f_equal (String ch) IH).
Qed.

Lemma markup_accumulates (tags : list (OptionTag Obj)) :
  forall html,
    foldl (fun acc t => acc +:+ option_markup html_params t) html tags =
      html +:+ options_markup html_params tags.
Proof.
  induction tags as [| t rest IH]; intros html; cbn [foldl options_markup foldr].
  - symmetry. apply append_empty.
  - rewrite IH. apply append_assoc.
Qed.

Lemma select_attributes_name kwargs f :
  kwargs !! "name" = None ->
  (match kwargs !! "id" with
   | Some _ => kwargs
   | None => <[ "id" := VStr (field_id f) ]> kwargs
   end) !! "name" = None.
Proof.
  intros Hname. destruct (kwargs !! "id"); [exact Hname |].
  rewrite lookup_insert_ne by discriminate. exact Hname.
Qed.

(** X15: on a field with a queryset, called without a [name] keyword, the
    rendering call is iteration over the options wrapped in a select tag:
    when iteration raises, the call raises the same exception; when it
    yields tags, the call returns the opening tag, the markups of the tags
    in order and the closing tag.  The opening tag gets the keyword
    arguments and the field's name; an [id] given by the caller is kept and
    the field's id is used only when there is none. *)
Theorem call_wraps_the_options f qs kwargs :
  queryset f = Some qs ->
  kwargs !! "name" = None ->
  __call__ html_params kwargs f =
    match __iter__ f with
    | (Ok tags, f') =>
        (Ok ("<select " +:+ html_params (select_attributes kwargs f) +:+ ">"
             +:+ options_markup html_params tags +:+ "</select>"), f')
    | (Raise e, f') => (Raise e, f')
    end /\
  (forall given, kwargs !! "id" = Some given ->
     select_attributes kwargs f !! "id" = Some given) /\
  (kwargs !! "id" = None ->
     select_attributes kwargs f !! "id" = Some (VStr (field_id f))) /\
  select_attributes kwargs f !! "name" = Some (VStr (field_name f)).
Proof.
  intros Hq Hname. split; [| split; [| split]].
  - unfold __call__, bind at 1, gets at 1.
    unfold bind at 1, get_queryset. rewrite Hq.
    unfold bind at 1, gets at 1.
    rewrite select_attributes_name by exact Hname.
    unfold bind at 1, ret at 1. unfold bind.
    destruct (__iter__ f) as [[tags | e] f']; [| reflexivity].
    unfold ret. rewrite markup_accumulates.
    fold (select_attributes kwargs f).
    rewrite !append_assoc. reflexivity.
  - intros given Hid. unfold select_attributes. rewrite Hid.
    rewrite lookup_insert_ne by discriminate. exact Hid.
  - intros Hid. unfold select_attributes. rewrite Hid.
    rewrite lookup_insert_ne by discriminate. apply lookup_insert_eq.
  - unfold select_attributes. apply lookup_insert_eq.
Qed.

(** X16: a [name] among the keyword arguments makes the rendering call fail
    before any option is produced: with a TypeError on a field with a
    queryset, with the AttributeError of the unset queryset otherwise.  The
    field is left exactly as it was. *)
Theorem name_keyword_collides f kwargs :
  is_Some (kwargs !! "name") ->
  __call__ html_params kwargs f =
    (Raise (if queryset f is Some _ then TypeError else AttributeError), f).
Proof.
  intros [given Hname]. unfold __call__, bind at 1, gets at 1.
  unfold bind at 1, get_queryset.
  destruct (queryset f) as [qs |]; [| reflexivity].
  unfold bind at 1, gets at 1.
  assert ((match kwargs !! "id" with
           | Some _ => kwargs
           | None => <[ "id" := VStr (field_id f) ]> kwargs
           end) !! "name" = Some given) as ->.
  { destruct (kwargs !! "id"); [exact Hname |].
    rewrite lookup_insert_ne by discriminate. exact Hname. }
  reflexivity.
Qed.

(** ** [ModelSelectField] *)

Lemma read_keeps_setup f : same_setup f (snd (_get_data f)).
Proof.
  rewrite _get_data_resolve. unfold resolve.
  destruct (_formdata f) as [n |]; [| repeat split].
  destruct (queryset f) as [rows |]; [| repeat split].
  destruct (first_with_pk n rows); repeat split.
Qed.

Lemma process_formdata_keeps_setup valuelist f :
  same_setup f (snd (process_formdata valuelist f)).
Proof.
  destruct valuelist as [| t rest]; [repeat split |].
  cbn [process_formdata].
  destruct (String.eqb t "__None"); [repeat split |].
  unfold bind, modify, int_.
  destruct (python_int t); repeat split.
Qed.

Lemma queryset_kept_by_read :
  preserves (fun g : Field Obj => is_Some (queryset g)) _get_data.
Proof.
  intros f Hq. destruct (read_keeps_setup f) as (_ & _ & _ & _ & ->). exact Hq.
Qed.

Lemma queryset_kept_by_step f op :
  is_Some (queryset f) -> is_Some (queryset (step html_params f op)).
Proof.
  intros Hq. destruct op; cbn [step].
  - destruct (process_formdata_keeps_setup valuelist f) as (_ & _ & _ & _ & ->).
    exact Hq.
  - exact Hq.
  - apply queryset_kept_by_read. exact Hq.
  - apply preserves_pre_validate; auto using queryset_kept_by_read.
  - apply preserves_iter; auto using queryset_kept_by_read.
  - apply preserves_call; auto using queryset_kept_by_read.
  - cbn. eauto.
Qed.

Lemma queryset_kept_by_run ops :
  forall f, is_Some (queryset f) -> is_Some (queryset (run html_params f ops)).
Proof.
  induction ops as [| op ops IH]; intros f Hq; [exact Hq |].
  apply IH, queryset_kept_by_step. exact Hq.
Qed.

(** X17: a [ModelSelectField] cannot be constructed with the default
    [model=None] (AttributeError).  Constructed over a model, it starts with
    the rows of the model's default manager as its queryset, no value and no
    pending token, and after any sequence of operations it still has a
    queryset, so a read of its data always returns. *)
Theorem model_select_field_has_a_queryset nm ident attr blank :
  ModelSelectField__init__ (Obj := Obj) nm ident None attr blank =
    Raise AttributeError /\
  (forall m : ModelClass Obj,
     exists f0,
       ModelSelectField__init__ nm ident (Some m) attr blank = Ok f0 /\
       queryset f0 = Some (_default_manager m) /\
       _data f0 = None /\ _formdata f0 = None /\
       forall ops,
         is_Some (queryset (run html_params f0 ops)) /\
         exists v, fst (_get_data (run html_params f0 ops)) = Ok v).
Proof.
  split; [reflexivity |]. intros m. eexists. split; [reflexivity |].
  split; [reflexivity |]. split; [reflexivity |]. split; [reflexivity |].
  intros ops.
  assert (is_Some (queryset (run html_params
            (__init__ nm ident (Some (all (_default_manager m))) attr blank) ops)))
    as Hq by (apply queryset_kept_by_run; cbn; eauto).
  split; [exact Hq |].
  destruct Hq as [rows Hrows].
  destruct (read_returns rows _ Hrows) as [v (_ & _ & Hv)]. eauto.
Qed.

(** ** What validation and rendering leave alone *)

Lemma read_twice f : fst (_get_data (snd (_get_data f))) = fst (_get_data f).
Proof.
  rewrite !_get_data_resolve. unfold resolve at 2 3.
  destruct (_formdata f) as [n |] eqn:Hn.
  - destruct (queryset f) as [rows |] eqn:Hq.
    + destruct (first_with_pk n rows) as [obj |] eqn:Hfind; cbn [fst snd].
      * reflexivity.
      * unfold resolve. cbn [_formdata queryset _data with_scan].
        rewrite Hn, Hq, Hfind. reflexivity.
    + cbn [fst snd]. unfold resolve. rewrite Hn, Hq. reflexivity.
  - cbn [fst snd]. unfold resolve. rewrite Hn. reflexivity.
Qed.

Lemma read_with_scan f : fst (_get_data (with_scan f)) = fst (_get_data f).
Proof.
  rewrite !_get_data_resolve. unfold resolve. cbn [_formdata queryset _data with_scan].
  destruct (_formdata f) as [n |]; [| reflexivity].
  destruct (queryset f) as [rows |]; [| reflexivity].
  destruct (first_with_pk n rows); reflexivity.
Qed.

Lemma same_setup_trans f g h : same_setup f g -> same_setup g h -> same_setup f h.
Proof.
  intros (A1 & A2 & A3 & A4 & A5) (B1 & B2 & B3 & B4 & B5).
  repeat split; congruence.
Qed.

Lemma read_kept_get_data f0 : preserves (read_kept f0) _get_data.
Proof.
  intros f [Hread Hsame]. split.
  - rewrite read_twice. exact Hread.
  - exact (same_setup_trans _ _ _ Hsame (read_keeps_setup f)).
Qed.

Lemma read_kept_with_scan f0 f : read_kept f0 f -> read_kept f0 (with_scan f).
Proof.
  intros [Hread Hsame]. split; [rewrite read_with_scan; exact Hread | exact Hsame].
Qed.

(** X11: validation, iteration over the options and the rendering call never
    change what the field's data reads as, nor the configuration, on any
    field and whether they return or raise: a read afterwards gives what a
    read before would have given (the same value, or the same exception),
    and name, id, label attribute, blank flag and queryset are as before. *)
Theorem validation_and_rendering_keep_the_value f kwargs :
  read_kept f (snd (pre_validate f)) /\
  read_kept f (snd (__iter__ f)) /\
  read_kept f (snd (__call__ html_params kwargs f)).
Proof.
  assert (read_kept f f) as Hstart by (split; [reflexivity | repeat split]).
  split; [| split].
  - apply preserves_pre_validate;
      auto using read_kept_get_data, read_kept_with_scan.
  - apply preserves_iter; auto using read_kept_get_data, read_kept_with_scan.
  - apply preserves_call; auto using read_kept_get_data, read_kept_with_scan.
Qed.

(** ** The options as text *)

Lemma iter_run f qs v :
  queryset f = Some qs ->
  (forall obj, obj ∈ qs -> exists label, option_label (label_attr f) obj = Ok label) ->
  fst (_get_data f) = Ok v ->
  exists tags f',
    __iter__ f =
      (Ok ((if allow_blank f then [blank_option v] else []) ++ tags)%list, f') /\
    Forall2 (tag_for (label_attr f) v) qs tags.
Proof.
  intros Hq Hlabels Hv.
  assert (reads_as qs (label_attr f) v f) as Hreads by (split; [| split]; auto).
  destruct (reads_as_get_data _ _ _ _ Hreads) as [Hread Hnext].
  unfold __iter__, bind at 1, gets at 1.
  destruct (allow_blank f).
  - destruct (iter_loop_tags _ _ _ qs (with_scan (snd (_get_data f)))
                (reads_as_with_scan _ _ _ _ Hnext) Hlabels)
      as (tags & f' & Hloop & Htags).
    exists tags, f'. split; [| exact Htags].
    unfold bind at 1 2. rewrite Hread. unfold ret at 1.
    unfold iter_queryset, bind, get_queryset, modify, ret.
    destruct Hnext as (-> & _ & _).
    fold (@ret Obj). unfold bind in Hloop. rewrite Hloop. reflexivity.
  - destruct (iter_loop_tags _ _ _ qs (with_scan f)
                (reads_as_with_scan _ _ _ _ Hreads) Hlabels)
      as (tags & f' & Hloop & Htags).
    exists tags, f'. split; [| exact Htags].
    unfold bind at 1, ret at 1.
    unfold iter_queryset, bind, get_queryset, modify, ret. rewrite Hq.
    fold (@ret Obj). unfold bind in Hloop. rewrite Hloop. reflexivity.
Qed.

Lemma tag_markup attr v obj (t : OptionTag Obj) :
  tag_for attr v obj t ->
  row_markup_for html_params attr v obj (option_markup html_params t).
Proof.
  intros (label & Hlabel & ->). exists label. split; [exact Hlabel |].
  unfold option_markup, _option, row_attributes. cbn [tag_options tag_label].
  destruct (obj_eq obj v); reflexivity.
Qed.

Lemma tags_markup attr v qs (tags : list (OptionTag Obj)) :
  Forall2 (tag_for attr v) qs tags ->
  Forall2 (row_markup_for html_params attr v) qs (option_markup html_params <$> tags).
Proof.
  intros Htags. apply Forall2_fmap_r.
  eapply Forall2_impl; [exact Htags |]. intros obj t. apply tag_markup.
Qed.

Lemma options_markup_join (tags : list (OptionTag Obj)) :
  options_markup html_params tags = join_text (option_markup html_params <$> tags).
Proof.
  induction tags as [| t rest IH]; [reflexivity |].
  cbn [options_markup join_text foldr fmap list_fmap].
  f_equal. exact IH.
Qed.

Lemma call_run f qs kwargs tags f' :
  queryset f = Some qs ->
  kwargs !! "name" = None ->
  __iter__ f = (Ok tags, f') ->
  __call__ html_params kwargs f =
    (Ok ("<select " +:+ html_params (select_attributes kwargs f) +:+ ">"
         +:+ join_text (option_markup html_params <$> tags) +:+ "</select>"), f').
Proof.
  intros Hq Hname Hiter.
  unfold __call__, bind at 1, gets at 1.
  unfold bind at 1, get_queryset. rewrite Hq.
  unfold bind at 1, gets at 1.
  rewrite select_attributes_name by exact Hname.
  unfold bind at 1, ret at 1. unfold bind. rewrite Hiter.
  unfold ret. rewrite markup_accumulates, options_markup_join.
  fold (select_attributes kwargs f).
  rewrite !append_assoc. reflexivity.
Qed.

Lemma row_attributes_selected obj v :
  bool_decide (is_Some (row_attributes obj v !! "selected")) = obj_eq obj v.
Proof.
  unfold row_attributes. destruct (obj_eq obj v).
  - rewrite lookup_insert_eq. apply bool_decide_eq_true. eauto.
  - rewrite lookup_singleton_ne by discriminate.
    apply bool_decide_eq_false. intros [x Hx]. discriminate Hx.
Qed.

Lemma selected_rows_count v qs :
  List.length
    (List.filter (fun obj => bool_decide (is_Some (row_attributes obj v !! "selected"))) qs)
  = matches v qs.
Proof.
  unfold matches. induction qs as [| obj rest IH]; [reflexivity |].
  cbn [List.filter]. rewrite row_attributes_selected.
  destruct (obj_eq obj v); cbn [List.length]; rewrite IH; reflexivity.
Qed.

(** C8 (amended): with blank not allowed, over a queryset of n rows whose
    label can be taken (no label attribute set, or one that every row has),
    and for the value [v] a read of the field's data returns, rendering
    produces exactly n option elements, in the order of the queryset: the
    i-th text is [<option ATTRS>LABEL</option>] for the i-th row, with the
    row's primary key as [value] and [selected] among ATTRS exactly when the
    row compares equal to [v]; the rendering call returns these texts, one
    after the other, between the opening and the closing select tag.  When
    exactly one row compares equal to [v], exactly one option carries
    [selected]. *)
Theorem options_follow_queryset f qs v :
  allow_blank f = false ->
  queryset f = Some qs ->
  (forall obj, obj ∈ qs -> exists label, option_label (label_attr f) obj = Ok label) ->
  fst (_get_data f) = Ok v ->
  exists tags f',
    __iter__ f = (Ok tags, f') /\
    List.length (option_markup html_params <$> tags) = List.length qs /\
    Forall2 (tag_for (label_attr f) v) qs tags /\
    Forall2 (row_markup_for html_params (label_attr f) v) qs
            (option_markup html_params <$> tags) /\
    (forall kwargs, kwargs !! "name" = None ->
       __call__ html_params kwargs f =
         (Ok ("<select " +:+ html_params (select_attributes kwargs f) +:+ ">"
              +:+ join_text (option_markup html_params <$> tags)
              +:+ "</select>"), f')) /\
    (matches v qs = 1%nat ->
     List.length (List.filter carries_selected tags) = 1%nat /\
     List.length
       (List.filter
          (fun obj => bool_decide (is_Some (row_attributes obj v !! "selected"))) qs)
     = 1%nat).
Proof.
  intros Hblank Hq Hlabels Hv.
  destruct (iter_run f qs v Hq Hlabels Hv) as (tags & f' & Hiter & Htags).
  rewrite Hblank in Hiter. cbn [app] in Hiter.
  exists tags, f'.
  split; [exact Hiter |].
  split.
  { rewrite length_fmap. symmetry. exact (Forall2_length _ _ _ Htags). }
  split; [exact Htags |].
  split; [apply tags_markup; exact Htags |].
  split.
  - intros kwargs Hname. exact (call_run f qs kwargs tags f' Hq Hname Hiter).
  - intros Hone. split.
    + rewrite (selected_count _ _ _ _ Htags). exact Hone.
    + rewrite selected_rows_count. exact Hone.
Qed.

(** X13: with blank allowed, over a queryset whose rows' labels can be
    taken, iteration yields the blank option first and then one option per
    row in the order of the queryset.  The blank option is the text
    [<option ATTRS></option>] with the reserved token as [value], an empty
    label, and [selected] among ATTRS exactly when the value read is absent;
    so the number of options carrying [selected] is that of the rows equal
    to the value, plus one when the value is absent. *)
Theorem blank_option_comes_first f qs v :
  allow_blank f = true ->
  queryset f = Some qs ->
  (forall obj, obj ∈ qs -> exists label, option_label (label_attr f) obj = Ok label) ->
  fst (_get_data f) = Ok v ->
  exists tags f',
    __iter__ f = (Ok (blank_option v :: tags), f') /\
    option_markup html_params (blank_option v) =
      "<option " +:+ html_params (blank_attributes v) +:+ "></option>" /\
    blank_attributes v !! "value" = Some (VStr "__None") /\
    (is_Some (blank_attributes v !! "selected") <-> v = None) /\
    Forall2 (row_markup_for html_params (label_attr f) v) qs
            (option_markup html_params <$> tags) /\
    List.length (List.filter carries_selected (blank_option v :: tags)) =
      ((if v is None then 1 else 0) + matches v qs)%nat.
Proof.
  intros Hblank Hq Hlabels Hv.
  destruct (iter_run f qs v Hq Hlabels Hv) as (tags & f' & Hiter & Htags).
  rewrite Hblank in Hiter. cbn [app] in Hiter.
  exists tags, f'.
  split; [exact Hiter |].
  split.
  { unfold option_markup, blank_option, _option, blank_attributes.
    cbn [tag_options tag_label py_text].
    destruct (bool_decide (v = None)); reflexivity. }
  split.
  { unfold blank_attributes. destruct (bool_decide (v = None)).
    - rewrite lookup_insert_ne by discriminate. apply lookup_singleton_eq.
    - apply lookup_singleton_eq. }
  split.
  { unfold blank_attributes. destruct v as [d |].
    - rewrite bool_decide_eq_false_2 by discriminate.
      rewrite lookup_singleton_ne by discriminate.
      split; [intros [x Hx]; discriminate Hx | discriminate].
    - rewrite bool_decide_eq_true_2 by reflexivity.
      rewrite lookup_insert_eq. split; [reflexivity | eauto]. }
  split; [apply tags_markup; exact Htags |].
  cbn [List.filter]. unfold blank_option at 1.
  rewrite carries_selected_option.
  destruct v as [d |].
  - rewrite bool_decide_eq_false_2 by discriminate.
    apply (selected_count _ _ _ _ Htags).
  - rewrite bool_decide_eq_true_2 by reflexivity.
    cbn [List.length]. rewrite (selected_count _ _ _ _ Htags). reflexivity.
Qed.

(** X3: the label of the options that iteration yields.  Over a queryset
    whose rows' labels can be taken, the option of each row has as label the
    row itself when no label attribute is set, the attribute's value when
    that value is true, and again the row itself when that value is false
    (an empty text, zero, [None]); its text is the option element around
    the text of that label. *)
Theorem option_labels_by_cases f qs v :
  queryset f = Some qs ->
  (forall obj, obj ∈ qs -> exists label, option_label (label_attr f) obj = Ok label) ->
  fst (_get_data f) = Ok v ->
  exists tags f',
    __iter__ f =
      (Ok ((if allow_blank f then [blank_option v] else []) ++ tags)%list, f') /\
    Forall2
      (fun obj t =>
         label_by_cases (label_attr f) obj (tag_label t) /\
         option_markup html_params t =
           "<option " +:+ html_params (row_attributes obj v) +:+ ">"
           +:+ py_text (tag_label t) +:+ "</option>")
      qs tags.
Proof.
  intros Hq Hlabels Hv.
  destruct (iter_run f qs v Hq Hlabels Hv) as (tags & f' & Hiter & Htags).
  exists tags, f'. split; [exact Hiter |].
  eapply Forall2_impl; [exact Htags |].
  intros obj t Htag.
  destruct (tag_markup _ _ _ _ Htag) as (label' & Hlabel' & Htext).
  destruct Htag as (label & Hlabel & ->).
  assert (label' = label) as -> by congruence.
  change (tag_label (_option (VInt (pk obj)) label (obj_eq obj v))) with label.
  split; [| exact Htext].
  destruct (option_label_cases (label_attr f) obj) as (Hnone & Hsome & _).
  split; [| split].
  - intros Hattr. specialize (Hnone Hattr). congruence.
  - intros value Hattr Hget Htrue. specialize (Hsome value Hattr Hget).
    rewrite Htrue in Hsome. congruence.
  - intros value Hattr Hget Hfalse. specialize (Hsome value Hattr Hget).
    rewrite Hfalse in Hsome. congruence.
Qed.

End Properties.

(** ** Concrete runs on the sample model *)

Lemma people_keys_differ : NoDup (pk <$> people).
Proof. apply (bool_decide_unpack _). vm_compute. exact I. Defined.

Lemma none_equals_no_person (obj : Row) : obj ∈ people -> py_eq None (Some obj) = false.
Proof. intros _. reflexivity. Defined.

Lemma people_have_names (obj : Row) :
  obj ∈ people -> exists label, option_label "name" obj = Ok label.
Proof. intros _. unfold option_label. cbn. eauto. Defined.

(** C1 at a failing input: blank allowed, token [9], no row with primary
    key 9.  Validation returns normally instead of raising
    [Not a valid choice]. *)
Theorem unknown_key_passes_validation_example :
  python_int "9" = Some 9 /\
  first_with_pk 9 people = None /\
  fst (process_then_validate ["9"] (people_field "" true)) = Ok tt.
Proof. split; [| split]; reflexivity. Qed.

(** C9 at a failing input: the label attribute is [name] and a row's name is
    the empty text.  The option's label is the row itself (shown as its text
    form), not the attribute's value. *)
Theorem empty_label_value_example :
  py_getattr nameless "name" = Some (VStr "") /\
  option_label "name" nameless = Ok (VObj nameless) /\
  match fst (__iter__ (people_field "name" false)) with
  | Ok tags => tag_label <$> tags
  | Raise _ => []
  end = [VStr "Alice"; VStr "Bob"; VObj nameless].
Proof. split; [| split]; reflexivity. Qed.

Lemma primary_key_round_trip_witness :
  exists f',
    process_then_read ["2"] (people_field "" false) = (Ok (Some bob), f') /\
    _data f' = Some bob /\ _formdata f' = None.
Proof.
  assert (pretty (pk bob) = "2") as <- by (vm_compute; reflexivity).
  apply (primary_key_round_trip (people_field "" false) people bob []).
  - reflexivity.
  - exact people_keys_differ.
  - apply list_elem_of_further, list_elem_of_here.
Defined.

Lemma pending_token_excludes_data_witness :
  exclusive
    (run sample_html_params (people_field "name" true)
         [OpProcess ["2"]; OpRead; OpProcess ["x"]; OpValidate; OpIter;
          OpCall ∅; OpAssign (Some alice); OpProcess ["7"]]).
Proof.
  exact (proj1 (pending_token_excludes_data sample_html_params)
           "person" "person" (Some people) "name" true _).
Defined.

Lemma blank_token_passes_when_allowed_witness :
  process_then_validate ["__None"] (bare_field true) =
    (Ok tt, with_formdata None (with_data None (bare_field true))).
Proof.
  exact (proj1 (proj2 (proj2
    (blank_token_passes_when_allowed (bare_field true) [] eq_refl)))).
Defined.

Lemma blank_token_rejected_when_not_allowed_witness :
  fst (process_then_validate ["__None"] (people_field "" false)) =
    Raise (ValidationError "Not a valid choice").
Proof.
  apply (blank_token_rejected_when_not_allowed (people_field "" false) people []).
  - reflexivity.
  - reflexivity.
  - exact none_equals_no_person.
Defined.

Lemma non_integer_token_raises_witness :
  process_then_validate ["abc"] (people_field "" false) =
    (Raise ValueError, with_data None (people_field "" false)).
Proof.
  apply (non_integer_token_raises (people_field "" false) "abc" []).
  - discriminate.
  - reflexivity.
Defined.

Lemma unset_queryset_is_attribute_error_witness :
  fst (__call__ sample_html_params ∅ (bare_field false)) = Raise AttributeError.
Proof.
  apply (proj2 (proj2 (proj2 (unset_queryset_is_attribute_error sample_html_params)))
           (bare_field false) eq_refl).
Defined.

Lemma unknown_key_rejected_witness :
  fst (process_then_validate ["9"] (people_field "" false)) =
    Raise (ValidationError "Not a valid choice").
Proof.
  apply (unknown_key_rejected_when_blank_not_allowed
           (people_field "" false) people "9" 9 []).
  - reflexivity.
  - reflexivity.
  - reflexivity.
  - reflexivity.
  - exact none_equals_no_person.
Defined.

Lemma unknown_key_accepted_witness :
  fst (process_then_validate ["9"] (people_field "" true)) = Ok tt.
Proof.
  apply (unknown_key_accepted_when_blank_allowed
           (people_field "" true) people "9" 9 []); reflexivity.
Defined.

(** ** Concrete runs for the further properties *)

Lemma people_equal_themselves : obj_eq bob (Some bob) = true.
Proof. reflexivity. Defined.


Lemma read_is_stable_witness :
  fst (_get_data (with_scan (with_formdata (Some 9) (people_field "" false)))) =
    Ok None /\
  scans (snd (_get_data (with_scan (with_formdata (Some 9) (people_field "" false))))) =
    2%nat.
Proof.
  pose proof (read_is_stable (with_formdata (Some 9) (people_field "" false))
                None _ eq_refl) as (Hagain & _ & Hscan).
  split; [exact Hagain |]. apply Hscan. cbn. eauto.
Defined.

Lemma read_after_submission_is_first_match_witness :
  exists f',
    process_then_read ["2"] (__init__ "person" "person" (Some twins) "" false) =
      (Ok (Some (mkRow 2 "Bob" "first")), f') /\
    _data f' = Some (mkRow 2 "Bob" "first") /\
    (is_Some (_formdata f') <-> Some (mkRow 2 "Bob" "first") = None).
Proof.
  exact (read_after_submission_is_first_match
           (__init__ "person" "person" (Some twins) "" false) twins "2" 2 []
           eq_refl eq_refl).
Defined.

Lemma validation_decides_membership_witness :
  fst (pre_validate (snd (process_formdata ["2"] (people_field "" false)))) = Ok tt.
Proof.
  exact (validation_decides_membership people (Some bob)
           (snd (process_formdata ["2"] (people_field "" false))) eq_refl eq_refl).
Defined.

Lemma valid_submission_passes_validation_witness :
  fst (process_then_validate [pretty (pk bob)] (people_field "" true)) = Ok tt.
Proof.
  apply (valid_submission_passes_validation (people_field "" true) people bob []).
  - reflexivity.
  - exact people_keys_differ.
  - apply list_elem_of_further, list_elem_of_here.
  - exact people_equal_themselves.
Defined.


Lemma missing_label_attribute_fails_rendering_witness :
  fst (__iter__ (people_field "title" false)) = Raise AttributeError.
Proof.
  apply (missing_label_attribute_fails_rendering sample_html_params
           (people_field "title" false) people alice ∅).
  - reflexivity.
  - apply list_elem_of_here.
  - discriminate.
  - reflexivity.
Defined.

Lemma call_wraps_the_options_witness :
  select_attributes ∅ (people_field "name" true) !! "name" =
    Some (VStr "person").
Proof.
  apply (call_wraps_the_options sample_html_params
           (people_field "name" true) people ∅); reflexivity.
Defined.

Lemma name_keyword_collides_witness :
  __call__ sample_html_params {[ "name" := VInt 1 ]} (people_field "" false) =
    (Raise TypeError, people_field "" false).
Proof.
  apply (name_keyword_collides sample_html_params (people_field "" false)
           {[ "name" := VInt 1 ]}).
  rewrite lookup_singleton_eq. eauto.
Defined.

(** ** Concrete runs for rendering *)

(** C8 as first stated fails when a label attribute is set that the rows do
    not have: three rows, blank not allowed, and rendering raises instead of
    producing three option tags. *)
Lemma options_need_the_label_attribute_counterexample :
  allow_blank (people_field "title" false) = false /\
  queryset (people_field "title" false) = Some people /\
  List.length people = 3%nat /\
  fst (__iter__ (people_field "title" false)) = Raise AttributeError /\
  fst (__call__ sample_html_params ∅ (people_field "title" false)) =
    Raise AttributeError /\
  ~ (exists tags f',
       __iter__ (people_field "title" false) = (Ok tags, f') /\
       List.length tags = 3%nat).
Proof.
  split; [reflexivity |]. split; [reflexivity |]. split; [reflexivity |].
  split; [reflexivity |]. split; [reflexivity |].
  intros (tags & f' & Hiter & _).
  apply (f_equal fst) in Hiter. discriminate Hiter.
Qed.

Lemma options_follow_queryset_witness :
  exists tags f',
    __iter__ (snd (process_formdata ["2"] (people_field "name" false))) =
      (Ok tags, f') /\
    List.length (option_markup sample_html_params <$> tags) = 3%nat /\
    Forall2 (row_markup_for sample_html_params "name" (Some bob)) people
            (option_markup sample_html_params <$> tags) /\
    matches (Some bob) people = 1%nat /\
    List.length (List.filter carries_selected tags) = 1%nat.
Proof.
  destruct (options_follow_queryset sample_html_params
              (snd (process_formdata ["2"] (people_field "name" false)))
              people (Some bob) eq_refl eq_refl people_have_names eq_refl)
    as (tags & f' & Hiter & Hlen & _ & Hmark & _ & Hsel).
  exists tags, f'.
  split; [exact Hiter |]. split; [exact Hlen |]. split; [exact Hmark |].
  split; [reflexivity |]. apply Hsel. reflexivity.
Defined.

Lemma blank_option_comes_first_witness :
  exists tags f',
    __iter__ (people_field "name" true) = (Ok (blank_option None :: tags), f') /\
    option_markup sample_html_params (blank_option None) =
      "<option " +:+ sample_html_params (blank_attributes None) +:+ "></option>" /\
    List.length (List.filter carries_selected (blank_option None :: tags)) = 1%nat.
Proof.
  destruct (blank_option_comes_first sample_html_params
              (people_field "name" true) people None
              eq_refl eq_refl people_have_names eq_refl)
    as (tags & f' & Hiter & Hblank & _ & _ & _ & Hcount).
  exists tags, f'.
  split; [exact Hiter |]. split; [exact Hblank | exact Hcount].
Defined.

Lemma option_labels_by_cases_witness :
  exists tags f',
    __iter__ (people_field "name" false) = (Ok tags, f') /\
    Forall2
      (fun obj t =>
         label_by_cases "name" obj (tag_label t) /\
         option_markup sample_html_params t =
           "<option " +:+ sample_html_params (row_attributes obj None) +:+ ">"
           +:+ py_text (tag_label t) +:+ "</option>")
      people tags.
Proof.
  exact (option_labels_by_cases sample_html_params (people_field "name" false)
           people None eq_refl people_have_names eq_refl).
Defined.
